(** * Blending indices: a shallow embedding of [utils/blend_indices.py]

    The module converts petroleum-stream properties (viscosity, Reid vapour
    pressure, pour point, API gravity) to blending indices and back.  Every
    number in the program is a binary64 float ([np.float64] or a Python
    [float]), so scalars are Rocq's primitive floats and the arithmetic of
    the source ([+], [-], [*], [/], [>]) is the IEEE arithmetic of
    [PrimFloat].  The two transcendental functions the source takes from
    numpy and from Python ([np.power], [np.log10], [**]) are not part of the
    repository: the transforms are parametrised by a record [Libm] holding
    them, and the theorems hold for every such record. *)

From Stdlib Require Import Floats ZArith Uint63.
From stdpp Require Import gmap strings list.

Set Warnings "-inexact-float".

(** ** Exceptions and results *)

(** The exceptions the module and its callers can see.  [AssertionError] is
    what the [assert] of [vbi] raises (the specification calls it a
    [DomainError]); [KeyError k] is what subscripting a [dict] with a
    missing key raises (the specification's [NotFoundError], naming the
    key); [TypeError] is calling or indexing an object of the wrong kind;
    [DomainError k pos] is the projector's domain failure, annotated with the
    property key and the element position. *)
Inductive exn : Type :=
  | AssertionError
  | KeyError (k : string)
  | TypeError
  | DomainError (k : string) (pos : nat).

Inductive result (A : Type) : Type :=
  | Ok (a : A)
  | Raise (e : exn).
Arguments Ok {A} a.
Arguments Raise {A} e.

(** [result] is an error monad; stdpp's [x ← c; k] notation reads as the
    sequencing of two Python statements, the second skipped when the first
    raises. *)
Global Instance result_ret : MRet result := fun A a => Ok a.
Global Instance result_bind : MBind result := fun A B f r =>
  match r with
  | Ok a => f a
  | Raise e => Raise e
  end.
Global Instance result_fmap : FMap result := fun A B f r =>
  match r with
  | Ok a => Ok (f a)
  | Raise e => Raise e
  end.

Definition is_ok {A : Type} (r : result A) : bool :=
  match r with Ok _ => true | Raise _ => false end.

(** ** Values: numpy scalars and one-dimensional arrays *)

Inductive value : Type :=
  | Scalar (x : float)
  | Array (xs : list float).

(** A numpy ufunc with its other operand fixed works element by element. *)
Definition vmap (f : float -> float) (v : value) : value :=
  match v with
  | Scalar x => Scalar (f x)
  | Array xs => Array (map f xs)
  end.

(** [np.all(v > c)]. *)
Definition all_gt (c : float) (v : value) : bool :=
  match v with
  | Scalar x => (c <? x)%float
  | Array xs => forallb (fun x => (c <? x)%float) xs
  end.

(** Two values have the same shape: both scalars, or arrays of one length. *)
Definition same_shape (v w : value) : Prop :=
  match v, w with
  | Scalar _, Scalar _ => True
  | Array xs, Array ys => length xs = length ys
  | _, _ => False
  end.

(** ** The library functions the module imports *)

Record Libm : Type := {
  np_power : float -> float -> float;   (* np.power on float64 *)
  np_log10 : float -> float;            (* np.log10 on float64 *)
  py_pow : float -> float -> float      (* Python's float ** float *)
}.

(** ** The transforms *)

Section Transforms.
Open Scope float_scope.

(** [c * 9/5 + 32] *)
Definition celcius_to_fahrenheit (c : value) : value :=
  vmap (fun x => x + 32) (vmap (fun x => x / 5) (vmap (fun x => x * 9) c)).

(** [(f - 32) * 5/9] *)
Definition fahrenheit_to_celcius (f : value) : value :=
  vmap (fun x => x / 9) (vmap (fun x => x * 5) (vmap (fun x => x - 32) f)).

(** [np.divide(141.5, 131.5 + api)] *)
Definition sg (api : value) : result value :=
  Ok (vmap (fun x => 141.5 / x) (vmap (fun x => 131.5 + x) api)).

(** [np.divide(141.5, sg) - 131.5] *)
Definition api (sg : value) : result value :=
  Ok (vmap (fun x => x - 131.5) (vmap (fun x => 141.5 / x) sg)).

Variable L : Libm.

(** [np.power(rvp, 1.25)] *)
Definition rvpi (rvp : value) : result value :=
  Ok (vmap (fun x => np_power L x 1.25) rvp).

(** [np.power(rvpi, 1.0/1.25)] *)
Definition inv_rvpi (rvpi : value) : result value :=
  Ok (vmap (fun x => np_power L x (1.0 / 1.25)) rvpi).

Definition ppi (pp : value) : result value :=
  let ppc := fahrenheit_to_celcius pp in
  let term1 := vmap (fun x => x / 283.15) (vmap (fun x => x + 273.15) ppc) in
  let term2 := vmap (fun x => x * py_pow L 100 0.08) term1 in
  Ok (vmap (fun x => np_power L x 12.5) term2).

(** [(283.15*((ppi/100)**0.08) - 273.15) * 1.8 + 32].  The argument is a
    numpy value, an [np.float64] or an array, as the other transforms return
    and as the elements of an array are: on these [**] is [np.power].  A
    plain Python [float] is not a [value]; on a negative one Python's own
    [**] returns a complex number. *)
Definition inv_ppi (ppi : value) : result value :=
  Ok (vmap (fun x => x + 32)
       (vmap (fun x => x * 1.8)
         (vmap (fun x => x - 273.15)
           (vmap (fun x => 283.15 * x)
             (vmap (fun x => np_power L x 0.08)
               (vmap (fun x => x / 100) ppi)))))).

(** [assert np.all(v > 0.2)], then [np.log10(np.log10(v + 0.8))] *)
Definition vbi (v : value) : result value :=
  if all_gt 0.2 v
  then Ok (vmap (np_log10 L) (vmap (np_log10 L) (vmap (fun x => x + 0.8) v)))
  else Raise AssertionError.

(** [np.power(10, np.power(10, vbi)) - 0.8] *)
Definition inv_vbi (vbi : value) : result value :=
  Ok (vmap (fun x => x - 0.8)
       (vmap (fun x => np_power L 10 x)
         (vmap (fun x => np_power L 10 x) vbi))).
End Transforms.

(** The scalar functions the transforms compute on each element. *)
Section ScalarTransforms.
Open Scope float_scope.
Variable L : Libm.

Definition sg1 (x : float) : float := 141.5 / (131.5 + x).
Definition api1 (x : float) : float := 141.5 / x - 131.5.
Definition rvpi1 (x : float) : float := np_power L x 1.25.
Definition inv_rvpi1 (x : float) : float := np_power L x (1.0 / 1.25).
Definition ppi1 (x : float) : float :=
  np_power L (((x - 32) * 5 / 9 + 273.15) / 283.15 * py_pow L 100 0.08) 12.5.
Definition inv_ppi1 (x : float) : float :=
  (283.15 * np_power L (x / 100) 0.08 - 273.15) * 1.8 + 32.
Definition vbi1 (x : float) : float := np_log10 L (np_log10 L (x + 0.8)).
Definition inv_vbi1 (x : float) : float :=
  np_power L 10 (np_power L 10 x) - 0.8.
End ScalarTransforms.

(** ** The registry *)

(** The registry is a [dict] of [dict]s; the inner values are strings or
    function references. *)
Inductive field : Type :=
  | FStr (s : string)
  | FFun (f : value -> result value).

Definition blend_indices (L : Libm) : gmap string (gmap string field) :=
  <["vis100f" := <["index_name" := FStr "vis100f_idx"]>
                 (<["func" := FFun (vbi L)]>
                 (<["inv_func" := FFun (inv_vbi L)]> ∅))]>
  (<["rvp" := <["index_name" := FStr "rvp_idx"]>
              (<["func" := FFun (rvpi L)]>
              (<["inv_func" := FFun (inv_rvpi L)]> ∅))]>
  (<["pour" := <["index_name" := FStr "pour_idx"]>
               (<["func" := FFun (ppi L)]>
               (<["inv_func" := FFun (inv_ppi L)]> ∅))]>
  (<["api" := <["index_name" := FStr "sg"]>
              (<["func" := FFun sg]>
              (<["inv_func" := FFun api]> ∅))]> ∅))).

(** A quality-constraint set: a [dict] from property key to a list of
    floats, in insertion order. *)
Definition constraints : Type := list (string * list float).

(** What a function of the module returns: a number or array, or [None]. *)
Inductive pyobj : Type :=
  | PValue (v : value)
  | PNone.

(** [process_quality_constraints] has a signature and a docstring and no
    other statement: every call returns [None]. *)
Definition process_quality_constraints (c : constraints) : result pyobj :=
  Ok PNone.

(** ** The operations the specification describes over the registry *)

(** Modelled from the spec: the two directions of the projector, absent
    from the source. *)
Inductive direction : Type := to_index | to_physical.

(** Modelled from the spec: the inner key of a registry entry that a
    direction reads. *)
Definition field_of (dir : direction) : string :=
  match dir with
  | to_index => "func"
  | to_physical => "inv_func"
  end.

(** Modelled from the spec: the lookup of a transform by property key is not
    written anywhere in the source (the registry is only defined there).  It
    is [blend_indices[key][field]], with Python's [KeyError] for a missing
    key, which is the specification's [NotFoundError] naming the key. *)
Definition lookup_transform (L : Libm) (dir : direction) (key : string)
  : result (value -> result value) :=
  match blend_indices L !! key with
  | None => Raise (KeyError key)
  | Some d =>
      match d !! field_of dir with
      | None => Raise (KeyError (field_of dir))
      | Some (FFun f) => Ok f
      | Some (FStr _) => Raise TypeError
      end
  end.

(** Modelled from the spec: [forward(property_key, value)] of the
    specification's interface, absent from the source. *)
Definition forward (L : Libm) (key : string) (v : value) : result value :=
  f ← lookup_transform L to_index key; f v.

(** Modelled from the spec: [inverse(property_key, value)] of the
    specification's interface, absent from the source. *)
Definition inverse (L : Libm) (key : string) (v : value) : result value :=
  f ← lookup_transform L to_physical key; f v.

(** Modelled from the spec: [forward] or [inverse], by direction. *)
Definition transform (L : Libm) (dir : direction) : string -> value -> result value :=
  match dir with
  | to_index => forward L
  | to_physical => inverse L
  end.

(** Modelled from the spec: [list_supported_properties()], absent from the
    source. *)
Definition list_supported_properties (L : Libm) : gset string :=
  dom (blend_indices L).

(** Modelled from the spec: the input validation of the projector, absent
    from the source.  The first key that is not in the registry fails the
    call. *)
Fixpoint check_keys (L : Libm) (c : constraints) : result unit :=
  match c with
  | [] => Ok tt
  | (k, _) :: c' =>
      match blend_indices L !! k with
      | None => Raise (KeyError k)
      | Some _ => check_keys L c'
      end
  end.

(** Modelled from the spec: the projection of one value sequence, absent
    from the source.  Element by element from position [pos]; a failure of
    the transform is reported with the key and the position. *)
Fixpoint project_values (f : value -> result value) (k : string) (pos : nat)
    (xs : list float) : result (list float) :=
  match xs with
  | [] => Ok []
  | x :: xs' =>
      match f (Scalar x) with
      | Ok (Scalar y) => ys ← project_values f k (S pos) xs'; Ok (y :: ys)
      | Ok (Array _) => Raise TypeError
      | Raise _ => Raise (DomainError k pos)
      end
  end.

(** Modelled from the spec: the projection of the entries, in input order,
    absent from the source. *)
Fixpoint project_entries (L : Libm) (dir : direction) (c : constraints)
  : result constraints :=
  match c with
  | [] => Ok []
  | (k, xs) :: c' =>
      f ← lookup_transform L dir k;
      ys ← project_values f k 0 xs;
      rest ← project_entries L dir c';
      Ok ((k, ys) :: rest)
  end.

(** Modelled from the spec: the constraint projector.  The source has only
    the declaration of [process_quality_constraints] (see above); the
    contract is the one of the specification: validate every key, then pass
    every value of every sequence through the transform of its key, in input
    order, failing as a whole on the first value a transform rejects. *)
Definition project_constraints (L : Libm) (c : constraints) (dir : direction)
  : result constraints :=
  _ ← check_keys L c; project_entries L dir c.

(** ** Predicates used in the statements *)

(** The result of applying [f] to each element of [xs] as a scalar, collected
    in order; it fails as soon as one application fails. *)
Fixpoint collect (f : value -> result value) (xs : list float) : result (list float) :=
  match xs with
  | [] => Ok []
  | x :: xs' =>
      match f (Scalar x) with
      | Ok (Scalar y) => ys ← collect f xs'; Ok (y :: ys)
      | Ok (Array _) => Raise TypeError
      | Raise e => Raise e
      end
  end.

(** A transform takes a scalar to a scalar, or fails. *)
Definition scalar_fun (f : value -> result value) : Prop :=
  forall x : float, (exists y, f (Scalar x) = Ok (Scalar y)) \/ (exists e, f (Scalar x) = Raise e).

(** [c'] is [c] with every value replaced by its transform. *)
Definition projected (L : Libm) (dir : direction) (c c' : constraints) : Prop :=
  Forall2 (fun kx ky : string * list float =>
             ky.1 = kx.1 /\
             Forall2 (fun x y => transform L dir kx.1 (Scalar x) = Ok (Scalar y))
                     kx.2 ky.2) c c'.

(** ** The module as a program over its global *)

(** The module has one global, [blend_indices], and eleven functions.  A call
    runs in a store holding the global and returns the store it leaves. *)
Inductive call : Type :=
  | call_celcius_to_fahrenheit (c : value)
  | call_fahrenheit_to_celcius (f : value)
  | call_rvpi (v : value)
  | call_inv_rvpi (v : value)
  | call_ppi (v : value)
  | call_inv_ppi (v : value)
  | call_vbi (v : value)
  | call_inv_vbi (v : value)
  | call_sg (v : value)
  | call_api (v : value)
  | call_process_quality_constraints (c : constraints).

Definition run (L : Libm) (c : call) (globals : gmap string (gmap string field))
  : result pyobj * gmap string (gmap string field) :=
  match c with
  | call_celcius_to_fahrenheit v => (Ok (PValue (celcius_to_fahrenheit v)), globals)
  | call_fahrenheit_to_celcius v => (Ok (PValue (fahrenheit_to_celcius v)), globals)
  | call_rvpi v => (PValue <$> rvpi L v, globals)
  | call_inv_rvpi v => (PValue <$> inv_rvpi L v, globals)
  | call_ppi v => (PValue <$> ppi L v, globals)
  | call_inv_ppi v => (PValue <$> inv_ppi L v, globals)
  | call_vbi v => (PValue <$> vbi L v, globals)
  | call_inv_vbi v => (PValue <$> inv_vbi L v, globals)
  | call_sg v => (PValue <$> sg v, globals)
  | call_api v => (PValue <$> api v, globals)
  | call_process_quality_constraints c => (process_quality_constraints c, globals)
  end.

(** ** An executable instance of the library functions *)

(** The theorems below hold for every [Libm].  To run the transforms on
    concrete inputs one instance is needed: [ref_libm] evaluates the natural
    logarithm and the exponential in binary64 by argument reduction and a
    truncated series, and derives [pow] and [log10] from them.  The special
    cases are those the module can reach: any base to the power zero is one,
    zero to a positive power is zero, a negative base gives NaN (every
    exponent of the module is fractional), the logarithm of zero is minus
    infinity and that of a negative number NaN. *)
Module RefLibm.
Open Scope float_scope.

Definition ln2 : float := 0.6931471805599453.
Definition ln10 : float := 2.302585092994046.

(** The integer part of a float (towards zero). *)
Definition trunc_Z (x : float) : Z :=
  match Prim2SF x with
  | S754_finite s m e =>
      let z := if (0 <=? e)%Z then Z.shiftl (Zpos m) e else Z.shiftr (Zpos m) (- e) in
      if s then (- z)%Z else z
  | _ => 0%Z
  end.

Definition of_Z (z : Z) : float :=
  match z with
  | Z0 => 0
  | Zpos _ => of_uint63 (Uint63.of_Z z)
  | Zneg p => - of_uint63 (Uint63.of_Z (Zpos p))
  end.

(** Horner evaluation of [1 + x/1 (1 + x/2 (1 + ...))], [n] terms, the
    innermost divisor being [k]. *)
Fixpoint exp_series (n : nat) (k x acc : float) : float :=
  match n with
  | O => acc
  | S n' => exp_series n' (k - 1) x (1 + x / k * acc)
  end.

Definition exp (x : float) : float :=
  if is_nan x then nan
  else if 710 <? x then infinity
  else if x <? -746 then 0
  else
    let k := trunc_Z (x / ln2 + (if x <? 0 then -0.5 else 0.5)) in
    let r := x - of_Z k * ln2 in
    Z.ldexp (exp_series 18 18 r 1) k.

(** Horner evaluation of [1 + z2/3 + z2^2/5 + ...], [n] terms, the last
    divisor being [d]. *)
Fixpoint atanh_series (n : nat) (d z2 acc : float) : float :=
  match n with
  | O => acc
  | S n' => atanh_series n' (d - 2) z2 (1 / d + z2 * acc)
  end.

Definition ln (x : float) : float :=
  if is_nan x then nan
  else if x <? 0 then nan
  else if x =? 0 then neg_infinity
  else if x =? infinity then infinity
  else
    let (m, e) := Z.frexp x in
    let (m, e) := if m <? 0.7071067811865476 then (m * 2, (e - 1)%Z) else (m, e) in
    let z := (m - 1) / (m + 1) in
    of_Z e * ln2 + 2 * z * atanh_series 15 29 (z * z) 0.

Definition pow (x y : float) : float :=
  if y =? 0 then 1
  else if (is_nan x || is_nan y)%bool then nan
  else if x =? 0 then (if 0 <? y then 0 else infinity)
  else if x <? 0 then nan
  else exp (y * ln x).

Definition log10 (x : float) : float := ln x / ln10.

Definition ref_libm : Libm :=
  {| np_power := pow; np_log10 := log10; py_pow := pow |}.

End RefLibm.

(** The relative tolerance test of a round trip: [r] is within [tol] of the
    expected [x], relative to [x]. *)
Definition within_rel_tol (tol x r : float) : bool :=
  (abs (r - x) <=? tol * abs x)%float.

(** * Properties *)

(** ** Float comparison *)

(** Swapping the operands of the IEEE comparison mirrors its result. *)
Lemma SFcompare_antisym (x y : spec_float) :
  SFcompare y x = CompOpp <$> SFcompare x y.
Proof.
  destruct x as [s1|s1| |s1 m1 e1], y as [s2|s2| |s2 m2 e2]; simpl;
    try reflexivity;
    try (destruct s1; reflexivity); try (destruct s2; reflexivity).
  - destruct s1, s2; reflexivity.
  - change PosDef.Pos.compare_cont with Pos.compare_cont.
    assert (He : (e2 ?= e1)%Z = CompOpp (e1 ?= e2)%Z) by apply Z.compare_antisym.
    assert (Hm : Pos.compare_cont Eq m2 m1 = CompOpp (Pos.compare_cont Eq m1 m2))
      by (symmetry; apply (Pos.compare_cont_antisym m1 m2 Eq)).
    rewrite He, Hm.
    destruct s1, s2, (e1 ?= e2)%Z, (Pos.compare_cont Eq m1 m2); reflexivity.
Qed.

(** [x <= c] excludes [c < x], for all floats (NaN included: both are false). *)
Lemma leb_not_ltb (x c : float) :
  (x <=? c)%float = true -> (c <? x)%float = false.
Proof.
  rewrite FloatAxioms.leb_spec, FloatAxioms.ltb_spec. unfold SFleb, SFltb.
  rewrite (SFcompare_antisym (Prim2SF x) (Prim2SF c)).
  destruct (SFcompare (Prim2SF x) (Prim2SF c)) as [[]|]; simpl; congruence.
Qed.

(** ** Element-wise structure of the transforms *)

Lemma vmap_vmap (f g : float -> float) (v : value) :
  vmap f (vmap g v) = vmap (fun x => f (g x)) v.
Proof. destruct v as [x|xs]; simpl; [reflexivity|]. by rewrite map_map. Qed.

Lemma vmap_same_shape (f : float -> float) (v : value) : same_shape v (vmap f v).
Proof. destruct v as [x|xs]; simpl; [exact I|]. by rewrite length_map. Qed.

Lemma sg_vmap (v : value) : sg v = Ok (vmap sg1 v).
Proof. unfold sg. by rewrite vmap_vmap. Qed.

Lemma api_vmap (v : value) : api v = Ok (vmap api1 v).
Proof. unfold api. by rewrite vmap_vmap. Qed.

Lemma rvpi_vmap (L : Libm) (v : value) : rvpi L v = Ok (vmap (rvpi1 L) v).
Proof. reflexivity. Qed.

Lemma inv_rvpi_vmap (L : Libm) (v : value) : inv_rvpi L v = Ok (vmap (inv_rvpi1 L) v).
Proof. reflexivity. Qed.

Lemma ppi_vmap (L : Libm) (v : value) : ppi L v = Ok (vmap (ppi1 L) v).
Proof. unfold ppi, fahrenheit_to_celcius. by rewrite !vmap_vmap. Qed.

Lemma inv_ppi_vmap (L : Libm) (v : value) : inv_ppi L v = Ok (vmap (inv_ppi1 L) v).
Proof. unfold inv_ppi. by rewrite !vmap_vmap. Qed.

Lemma vbi_vmap (L : Libm) (v : value) :
  vbi L v = if all_gt 0.2 v then Ok (vmap (vbi1 L) v) else Raise AssertionError.
Proof. unfold vbi. by rewrite !vmap_vmap. Qed.

Lemma inv_vbi_vmap (L : Libm) (v : value) : inv_vbi L v = Ok (vmap (inv_vbi1 L) v).
Proof. unfold inv_vbi. by rewrite !vmap_vmap. Qed.

(** ** The viscosity guard *)

(** C3. The viscosity forward transform [vbi] fails (with the assertion
    failure that the specification names DomainError) for every scalar input
    less than or equal to 0.2 and for every array that has one such element,
    whatever the other elements are; the failure is decided by the guard
    alone, no logarithm being taken; the input 0.2000001 passes the guard
    and yields the double logarithm of 0.2000001 + 0.8. *)
Theorem vbi_domain_guard (L : Libm) :
  (forall x : float, (x <=? 0.2)%float = true ->
     vbi L (Scalar x) = Raise AssertionError) /\
  (forall (xs : list float) (x : float), x ∈ xs -> (x <=? 0.2)%float = true ->
     vbi L (Array xs) = Raise AssertionError) /\
  vbi L (Scalar 0.2)%float = Raise AssertionError /\
  vbi L (Scalar 0.2000001%float)
    = Ok (Scalar (np_log10 L (np_log10 L (0.2000001 + 0.8)%float))).
Proof.
  repeat split.
  - intros x Hx. unfold vbi; simpl. by rewrite (leb_not_ltb _ _ Hx).
  - intros xs x Hin Hx. unfold vbi; simpl.
    destruct (forallb _ xs) eqn:Hall; [|reflexivity].
    rewrite forallb_forall in Hall.
    apply list_elem_of_In, Hall in Hin.
    rewrite (leb_not_ltb _ _ Hx) in Hin. discriminate.
Qed.

Lemma vbi_domain_guard_witness :
  vbi RefLibm.ref_libm (Scalar 0.1%float) = Raise AssertionError /\
  vbi RefLibm.ref_libm (Array [1; 0.1; 3]%float) = Raise AssertionError.
Proof.
  destruct (vbi_domain_guard RefLibm.ref_libm) as (Hs & Ha & _).
  split.
  - apply Hs. reflexivity.
  - apply (Ha _ 0.1%float); [|reflexivity]. apply list_elem_of_In. simpl. tauto.
Defined.

(** ** API gravity *)

(** At API = -131.5 the denominator is zero and [sg] returns, with no
    failure, the IEEE quotient 141.5 / 0 = +infinity. *)
Lemma sg_zero_denominator_returns :
  (131.5 + -131.5 =? 0)%float = true /\
  sg (Scalar (-131.5)%float) = Ok (Scalar infinity) /\
  sg (Scalar (-131.5)%float) <> Raise AssertionError.
Proof. repeat split. discriminate. Qed.

(** C4, as the code has it. The API-gravity forward transform [sg] has no
    domain check and never fails, for scalars and arrays alike, and keeps the
    shape of its input: where the denominator 131.5 + API is zero
    (API = -131.5) it returns +infinity; for the input 0 it returns
    141.5/131.5. *)
Theorem sg_total :
  (forall v : value, exists w : value, sg v = Ok w /\ same_shape v w) /\
  sg (Scalar (-131.5)%float) = Ok (Scalar infinity) /\
  sg (Scalar 0%float) = Ok (Scalar (141.5 / 131.5)%float).
Proof.
  repeat split. intros v. exists (vmap sg1 v). split.
  - apply sg_vmap.
  - apply vmap_same_shape.
Qed.

(** ** Arrays against scalars *)

Lemma collect_vmap (f : value -> result value) (g : float -> float) (xs ys : list float) :
  (forall x, f (Scalar x) = Ok (Scalar (g x))) ->
  collect f xs = Ok ys -> ys = map g xs.
Proof.
  intros Hf. revert ys. induction xs as [|x xs IH]; intros ys; simpl.
  - congruence.
  - rewrite Hf. destruct (collect f xs) as [zs|e]; simpl; [|discriminate].
    intros [= <-]. by rewrite (IH zs).
Qed.

Lemma collect_vbi (L : Libm) (xs ys : list float) :
  collect (vbi L) xs = Ok ys ->
  forallb (fun x => (0.2 <? x)%float) xs = true /\ ys = map (vbi1 L) xs.
Proof.
  revert ys. induction xs as [|x xs IH]; intros ys; simpl.
  - intros [= <-]. done.
  - rewrite vbi_vmap; simpl. destruct (0.2 <? x)%float; [|discriminate]. simpl.
    destruct (collect (vbi L) xs) as [zs|e]; simpl; [|discriminate].
    intros [= <-]. destruct (IH zs eq_refl) as [-> ->]. done.
Qed.

(** The four forward transforms, by registry key. *)
Lemma blend_indices_func (L : Libm) (k : string) (e : gmap string field)
    (f : value -> result value) :
  blend_indices L !! k = Some e -> e !! "func" = Some (FFun f) ->
  f = vbi L \/ f = rvpi L \/ f = ppi L \/ f = sg.
Proof.
  unfold blend_indices. intros He Hf.
  repeat (apply lookup_insert_Some in He as [[_ <-]|[_ He]];
          [vm_compute in Hf; injection Hf as <-; tauto|]).
  by rewrite lookup_empty in He.
Qed.

(** C7. For every supported property, a scalar input of the forward
    transform gives a scalar output, and on an array whose elements each pass
    the transform as scalars the transform returns the array of the scalar
    results, in the same order and of the same length. *)
Theorem forward_array_elementwise (L : Libm) (k : string) (e : gmap string field)
    (f : value -> result value) :
  blend_indices L !! k = Some e -> e !! "func" = Some (FFun f) ->
  (forall (x : float) (r : value), f (Scalar x) = Ok r -> exists y, r = Scalar y) /\
  (forall xs ys : list float, collect f xs = Ok ys ->
     f (Array xs) = Ok (Array ys) /\ length ys = length xs).
Proof.
  intros He Hf.
  destruct (blend_indices_func L k e f He Hf) as [-> | [-> | [-> | ->]]].
  - split.
    + intros x r. rewrite vbi_vmap; simpl. destruct (0.2 <? x)%float; [|discriminate].
      intros [= <-]. eauto.
    + intros xs ys Hc. apply collect_vbi in Hc as [Hall ->].
      rewrite vbi_vmap; simpl. rewrite Hall, length_map. done.
  - split.
    + intros x r. rewrite rvpi_vmap. intros [= <-]. simpl; eauto.
    + intros xs ys Hc. apply (collect_vmap _ (rvpi1 L)) in Hc as ->; [|done].
      rewrite rvpi_vmap, length_map. done.
  - split.
    + intros x r. rewrite ppi_vmap. intros [= <-]. simpl; eauto.
    + intros xs ys Hc.
      apply (collect_vmap _ (ppi1 L)) in Hc as ->; [|intros; by rewrite ppi_vmap].
      rewrite ppi_vmap, length_map. done.
  - split.
    + intros x r. rewrite sg_vmap. intros [= <-]. simpl; eauto.
    + intros xs ys Hc.
      apply (collect_vmap _ sg1) in Hc as ->; [|intros; by rewrite sg_vmap].
      rewrite sg_vmap, length_map. done.
Qed.

(** The entries of the registry, key by key. *)
Lemma blend_indices_lookup (L : Libm) :
  (exists e, blend_indices L !! "vis100f" = Some e /\
     e !! "func" = Some (FFun (vbi L)) /\ e !! "inv_func" = Some (FFun (inv_vbi L))) /\
  (exists e, blend_indices L !! "rvp" = Some e /\
     e !! "func" = Some (FFun (rvpi L)) /\ e !! "inv_func" = Some (FFun (inv_rvpi L))) /\
  (exists e, blend_indices L !! "pour" = Some e /\
     e !! "func" = Some (FFun (ppi L)) /\ e !! "inv_func" = Some (FFun (inv_ppi L))) /\
  (exists e, blend_indices L !! "api" = Some e /\
     e !! "func" = Some (FFun sg) /\ e !! "inv_func" = Some (FFun api)).
Proof. repeat split; eexists; repeat split; reflexivity. Qed.

Lemma forward_array_elementwise_witness :
  vbi RefLibm.ref_libm (Array [1; 40; 1000]%float)
  = Ok (Array [-0.59299595967657992; 0.20700391728835491; 0.47717152815443109]%float).
Proof.
  destruct (blend_indices_lookup RefLibm.ref_libm) as ((e & He & Hf & _) & _).
  refine (proj1 (proj2 (forward_array_elementwise RefLibm.ref_libm "vis100f" e _ He Hf)
                   [1; 40; 1000]%float _ _)).
  vm_compute. reflexivity.
Defined.

(** ** The registry *)

Lemma blend_indices_dom (L : Libm) :
  dom (blend_indices L) = ({["vis100f"; "rvp"; "pour"; "api"]} : gset string).
Proof.
  unfold blend_indices. rewrite !dom_insert_L, dom_empty_L. set_solver.
Qed.

(** Every entry is a three-field record of the right kinds. *)
Lemma blend_indices_entry (L : Libm) (k : string) (e : gmap string field) :
  blend_indices L !! k = Some e ->
  exists (s : string) (f g : value -> result value),
    e !! "index_name" = Some (FStr s) /\
    e !! "func" = Some (FFun f) /\
    e !! "inv_func" = Some (FFun g) /\
    dom e = ({["index_name"; "func"; "inv_func"]} : gset string).
Proof.
  unfold blend_indices. intros He.
  repeat (apply lookup_insert_Some in He as [[_ <-]|[_ He]];
          [do 3 eexists; repeat split; try reflexivity;
           rewrite !dom_insert_L, dom_empty_L; set_solver|]).
  by rewrite lookup_empty in He.
Qed.

(** C9. The registry's key set is exactly vis100f, rvp, pour and api; every
    entry carries an index_name string, a forward function under func and an
    inverse function under inv_func (and nothing else); and no function of
    the module changes the registry: whatever is called, on whatever
    argument, the global is left as it was found. *)
Theorem registry_fixed (L : Libm) :
  dom (blend_indices L) = ({["vis100f"; "rvp"; "pour"; "api"]} : gset string) /\
  (forall (k : string) (e : gmap string field), blend_indices L !! k = Some e ->
     exists (s : string) (f g : value -> result value),
       e !! "index_name" = Some (FStr s) /\
       e !! "func" = Some (FFun f) /\
       e !! "inv_func" = Some (FFun g) /\
       dom e = ({["index_name"; "func"; "inv_func"]} : gset string)) /\
  (forall (c : call) (globals : gmap string (gmap string field)),
     (run L c globals).2 = globals).
Proof.
  split; [apply blend_indices_dom|]. split; [apply blend_indices_entry|].
  intros c globals. destruct c; reflexivity.
Qed.

(** A key is in the registry exactly when it is one of the four. *)
Lemma blend_indices_is_Some (L : Libm) (k : string) :
  is_Some (blend_indices L !! k) <->
  k = "vis100f" \/ k = "rvp" \/ k = "pour" \/ k = "api".
Proof.
  rewrite <- elem_of_dom, blend_indices_dom.
  rewrite !elem_of_union, !elem_of_singleton. tauto.
Qed.

(** ** Dispatch by key *)

Lemma scalar_fun_vmap (f : value -> result value) (g : float -> float) :
  (forall v, f v = Ok (vmap g v)) -> scalar_fun f.
Proof. intros Hf x. left. exists (g x). by rewrite Hf. Qed.

Lemma scalar_fun_vbi (L : Libm) : scalar_fun (vbi L).
Proof.
  intros x. rewrite vbi_vmap; simpl. destruct (0.2 <? x)%float; eauto.
Qed.

Lemma lookup_transform_None (L : Libm) (dir : direction) (k : string) :
  blend_indices L !! k = None -> lookup_transform L dir k = Raise (KeyError k).
Proof. intros Hk. unfold lookup_transform. by rewrite Hk. Qed.

Lemma lookup_transform_Some (L : Libm) (dir : direction) (k : string) :
  is_Some (blend_indices L !! k) ->
  exists f, lookup_transform L dir k = Ok f /\ scalar_fun f.
Proof.
  intros Hk. apply blend_indices_is_Some in Hk as [-> | [-> | [-> | ->]]];
    destruct dir; eexists; (split; [reflexivity|]).
  - apply scalar_fun_vbi.
  - apply (scalar_fun_vmap _ _ (inv_vbi_vmap L)).
  - apply (scalar_fun_vmap _ _ (rvpi_vmap L)).
  - apply (scalar_fun_vmap _ _ (inv_rvpi_vmap L)).
  - apply (scalar_fun_vmap _ _ (ppi_vmap L)).
  - apply (scalar_fun_vmap _ _ (inv_ppi_vmap L)).
  - apply (scalar_fun_vmap _ _ sg_vmap).
  - apply (scalar_fun_vmap _ _ api_vmap).
Qed.

Lemma transform_lookup (L : Libm) (dir : direction) (k : string) (v : value) :
  transform L dir k v = f ← lookup_transform L dir k; f v.
Proof. destruct dir; reflexivity. Qed.

Lemma check_keys_ok (L : Libm) (c : constraints) :
  (forall k, k ∈ c.*1 -> is_Some (blend_indices L !! k)) -> check_keys L c = Ok tt.
Proof.
  induction c as [|[k xs] c IH]; intros Hc; simpl; [reflexivity|].
  destruct (Hc k) as [e ->]; [apply elem_of_cons; by left|].
  apply IH. intros k' Hk'. apply Hc, elem_of_cons. by right.
Qed.

Lemma check_keys_first_unknown (L : Libm) (c1 c2 : constraints) (k : string)
    (xs : list float) :
  (forall k1, k1 ∈ c1.*1 -> is_Some (blend_indices L !! k1)) ->
  blend_indices L !! k = None ->
  check_keys L (c1 ++ (k, xs) :: c2) = Raise (KeyError k).
Proof.
  intros Hc1 Hk. induction c1 as [|[k1 xs1] c1 IH]; simpl.
  - by rewrite Hk.
  - destruct (Hc1 k1) as [e ->]; [apply elem_of_cons; by left|].
    apply IH. intros k' Hk'. apply Hc1, elem_of_cons. by right.
Qed.

Lemma check_keys_unknown (L : Libm) (c : constraints) (k : string) :
  k ∈ c.*1 -> blend_indices L !! k = None ->
  exists k', check_keys L c = Raise (KeyError k') /\ k' ∈ c.*1 /\
             blend_indices L !! k' = None.
Proof.
  intros Hin Hk. induction c as [|[k1 xs1] c IH]; simpl in *.
  - by apply elem_of_nil in Hin.
  - destruct (blend_indices L !! k1) as [e|] eqn:Hk1.
    + apply elem_of_cons in Hin as [->|Hin]; [congruence|].
      destruct (IH Hin) as (k' & Hck & Hin' & Hk').
      exists k'. split; [done|]. split; [|done]. apply elem_of_cons. by right.
    + exists k1. split; [done|]. split; [|done]. apply elem_of_cons. by left.
Qed.

(** C5. For a property key that is not in the registry, the dispatch of the
    forward and of the inverse transform fails with the error that names the
    key, whatever the argument; and the projector fails on every constraint
    set that contains the key, in either direction, with the same kind of
    error: it names an unregistered key of the set, which is the key itself
    whenever the keys before it are registered.  No transform and no result
    is returned. *)
Theorem unknown_key_fails (L : Libm) (k : string) :
  blend_indices L !! k = None ->
  (forall (dir : direction), lookup_transform L dir k = Raise (KeyError k)) /\
  (forall v : value, forward L k v = Raise (KeyError k)) /\
  (forall v : value, inverse L k v = Raise (KeyError k)) /\
  (forall (c : constraints) (dir : direction), k ∈ c.*1 ->
     exists k', project_constraints L c dir = Raise (KeyError k') /\
                k' ∈ c.*1 /\ blend_indices L !! k' = None) /\
  (forall (c1 c2 : constraints) (xs : list float) (dir : direction),
     (forall k1, k1 ∈ c1.*1 -> is_Some (blend_indices L !! k1)) ->
     project_constraints L (c1 ++ (k, xs) :: c2) dir = Raise (KeyError k)).
Proof.
  intros Hk. repeat split.
  - intros dir. by apply lookup_transform_None.
  - intros v. unfold forward. by rewrite lookup_transform_None.
  - intros v. unfold inverse. by rewrite lookup_transform_None.
  - intros c dir Hin. destruct (check_keys_unknown L c k Hin Hk) as (k' & Hck & ? & ?).
    exists k'. unfold project_constraints. by rewrite Hck.
  - intros c1 c2 xs dir Hc1. unfold project_constraints.
    by rewrite check_keys_first_unknown.
Qed.

Lemma unknown_key_fails_witness :
  forward RefLibm.ref_libm "unknown_prop" (Scalar 1%float)
    = Raise (KeyError "unknown_prop") /\
  project_constraints RefLibm.ref_libm [("unknown_prop", [1%float])] to_index
    = Raise (KeyError "unknown_prop").
Proof.
  destruct (unknown_key_fails RefLibm.ref_libm "unknown_prop" eq_refl)
    as (_ & Hf & _ & _ & Hp).
  split; [apply Hf|]. apply (Hp [] [] [1%float] to_index).
  intros k1 Hk1. by apply elem_of_nil in Hk1.
Defined.

(** ** The projector *)

Lemma project_values_spec (f : value -> result value) (k : string) (xs : list float) :
  scalar_fun f -> forall pos : nat,
  match project_values f k pos xs with
  | Ok ys => Forall2 (fun x y => f (Scalar x) = Ok (Scalar y)) xs ys
  | Raise e => exists (i : nat) (x : float),
      e = DomainError k (pos + i) /\ xs !! i = Some x /\ is_ok (f (Scalar x)) = false
  end.
Proof.
  intros Hf. induction xs as [|x xs IH]; intros pos; simpl; [constructor|].
  destruct (Hf x) as [[y Hy]|[e He]].
  - rewrite Hy. specialize (IH (S pos)).
    destruct (project_values f k (S pos) xs) as [ys|e]; simpl.
    + by constructor.
    + destruct IH as (i & x' & -> & Hi & Hx'). exists (S i), x'.
      split; [f_equal; lia|]. done.
  - rewrite He. exists 0, x. rewrite Nat.add_0_r, He. done.
Qed.

Lemma project_entries_spec (L : Libm) (dir : direction) (c : constraints) :
  (forall k, k ∈ c.*1 -> is_Some (blend_indices L !! k)) ->
  match project_entries L dir c with
  | Ok c' => projected L dir c c'
  | Raise e => exists (k : string) (pos : nat) (xs : list float) (x : float),
      e = DomainError k pos /\ (k, xs) ∈ c /\ xs !! pos = Some x /\
      is_ok (transform L dir k (Scalar x)) = false
  end.
Proof.
  induction c as [|[k xs] c IH]; intros Hc; simpl; [constructor|].
  destruct (lookup_transform_Some L dir k) as (f & Hf & Hsf);
    [apply Hc, elem_of_cons; by left|].
  rewrite Hf; simpl.
  pose proof (project_values_spec f k xs Hsf 0) as Hv.
  destruct (project_values f k 0 xs) as [ys|e]; simpl.
  - assert (Hc' : forall k0, k0 ∈ c.*1 -> is_Some (blend_indices L !! k0)).
    { intros k0 Hk0. apply Hc, elem_of_cons. by right. }
    specialize (IH Hc').
    destruct (project_entries L dir c) as [c'|e]; simpl.
    + constructor; [|done]. split; [done|]. simpl.
      eapply Forall2_impl; [exact Hv|]. intros x y Hxy.
      by rewrite transform_lookup, Hf.
    + destruct IH as (k0 & pos & xs0 & x & -> & Hin & Hpos & Hx).
      exists k0, pos, xs0, x. repeat split; try done. apply elem_of_cons. by right.
  - destruct Hv as (i & x & -> & Hi & Hx). exists k, i, xs, x.
    repeat split; try done; [apply elem_of_cons; by left|].
    by rewrite transform_lookup, Hf.
Qed.

Lemma projected_keys (L : Libm) (dir : direction) (c c' : constraints) :
  projected L dir c c' ->
  c'.*1 = c.*1 /\ Forall2 (fun kx ky => length ky.2 = length kx.2) c c'.
Proof.
  induction 1 as [|[k xs] [k' ys] c c' [Hk Hv] _ [IH1 IH2]]; simpl in *.
  - split; constructor.
  - split; [by f_equal|]. constructor; [|done]. simpl.
    symmetry. by eapply Forall2_length.
Qed.

(** A projected set gives every value of the input its transform. *)
Lemma projected_valid (L : Libm) (dir : direction) (c c' : constraints)
    (k : string) (xs : list float) (x : float) :
  projected L dir c c' -> (k, xs) ∈ c -> x ∈ xs ->
  is_ok (transform L dir k (Scalar x)) = true.
Proof.
  induction 1 as [|[k0 xs0] [k1 ys] c c' [_ Hv] _ IH]; intros Hin Hx.
  - by apply elem_of_nil in Hin.
  - apply elem_of_cons in Hin as [[= -> ->]|Hin]; [|by apply IH].
    simpl in Hv. clear IH. induction Hv as [|x0 y xs ys Hxy _ IH].
    + by apply elem_of_nil in Hx.
    + apply elem_of_cons in Hx as [->|Hx]; [by rewrite Hxy|by apply IH].
Qed.

(** With registered keys only, no mapping can hold the transform of every
    value when a value is outside the domain of its transform: the registry's
    forward transform of vis100f is [vbi], which fails on 0.1, and so does
    the projector on a viscosity bound of 0.1 in the direction to_index.
    (The function the source declares returns [None] on this input as on
    every other.) *)
Lemma project_constraints_rejects_value :
  (forall k, k ∈ [("vis100f", [0.1%float])].*1 ->
     is_Some (blend_indices RefLibm.ref_libm !! k)) /\
  vbi RefLibm.ref_libm (Scalar 0.1%float) = Raise AssertionError /\
  transform RefLibm.ref_libm to_index "vis100f" (Scalar 0.1%float)
    = Raise AssertionError /\
  project_constraints RefLibm.ref_libm [("vis100f", [0.1%float])] to_index
    = Raise (DomainError "vis100f" 0) /\
  process_quality_constraints [("vis100f", [0.1%float])] = Ok PNone.
Proof.
  split; [|repeat split].
  intros k Hk. apply list_elem_of_singleton in Hk as ->.
  apply blend_indices_is_Some. by left.
Qed.

(** C2, as the projector behaves. For every quality-constraint set whose
    keys are all registered: if every value passes the transform of its key
    in the given direction, the projector returns a new mapping with the same
    keys in the same order and the same per-key lengths, each value being the
    transform of the original value; a failure is a domain error naming a key
    and a position at which the transform fails; whatever mapping is
    returned is complete (same keys, same lengths, every value transformed),
    so that no partial result is ever returned; and a single value that its
    transform rejects makes the whole call fail. *)
Theorem project_constraints_spec (L : Libm) (c : constraints) (dir : direction) :
  (forall k, k ∈ c.*1 -> is_Some (blend_indices L !! k)) ->
  ((forall (k : string) (xs : list float) (x : float), (k, xs) ∈ c -> x ∈ xs ->
      is_ok (transform L dir k (Scalar x)) = true) ->
   exists c' : constraints,
     project_constraints L c dir = Ok c' /\
     c'.*1 = c.*1 /\
     Forall2 (fun kx ky => length ky.2 = length kx.2) c c' /\
     projected L dir c c') /\
  (forall e : exn, project_constraints L c dir = Raise e ->
   exists (k : string) (pos : nat) (xs : list float) (x : float),
     e = DomainError k pos /\ (k, xs) ∈ c /\ xs !! pos = Some x /\
     is_ok (transform L dir k (Scalar x)) = false) /\
  (forall c' : constraints, project_constraints L c dir = Ok c' ->
     c'.*1 = c.*1 /\
     Forall2 (fun kx ky => length ky.2 = length kx.2) c c' /\
     projected L dir c c') /\
  (forall (k : string) (xs : list float) (x : float), (k, xs) ∈ c -> x ∈ xs ->
     is_ok (transform L dir k (Scalar x)) = false ->
     exists (k' : string) (pos : nat),
       project_constraints L c dir = Raise (DomainError k' pos)).
Proof.
  intros Hc. unfold project_constraints. rewrite (check_keys_ok L c Hc); simpl.
  pose proof (project_entries_spec L dir c Hc) as Hp.
  destruct (project_entries L dir c) as [c'|e]; (split; [|split; [|split]]).
  - intros _. exists c'. split; [done|].
    destruct (projected_keys L dir c c' Hp) as [Hk Hl]. done.
  - intros e [=].
  - intros c'' [= <-]. destruct (projected_keys L dir c c' Hp) as [Hk Hl]. done.
  - intros k xs x Hin Hx Hbad.
    rewrite (projected_valid L dir c c' k xs x Hp Hin Hx) in Hbad. discriminate.
  - intros Hvalid. destruct Hp as (k & pos & xs & x & _ & Hin & Hpos & Hx).
    rewrite (Hvalid k xs x Hin) in Hx; [discriminate|].
    by apply list_elem_of_lookup_2 in Hpos.
  - intros e' [= <-]. exact Hp.
  - intros c' [=].
  - intros k xs x _ _ _. destruct Hp as (k' & pos & _ & _ & -> & _). eauto.
Qed.

Lemma project_constraints_spec_witness :
  (exists c' : constraints,
     project_constraints RefLibm.ref_libm
       [("rvp", [5.0; 10.0]%float); ("api", [30.0]%float)] to_index = Ok c' /\
     c'.*1 = ["rvp"; "api"] /\
     Forall2 (fun kx ky : string * list float => length ky.2 = length kx.2)
       [("rvp", [5.0; 10.0]%float); ("api", [30.0]%float)] c' /\
     projected RefLibm.ref_libm to_index
       [("rvp", [5.0; 10.0]%float); ("api", [30.0]%float)] c') /\
  (exists (k' : string) (pos : nat),
     project_constraints RefLibm.ref_libm
       [("rvp", [5.0]%float); ("vis100f", [40; 0.1]%float)] to_index
     = Raise (DomainError k' pos)).
Proof.
  split.
  - refine (proj1 (project_constraints_spec RefLibm.ref_libm
              [("rvp", [5.0; 10.0]%float); ("api", [30.0]%float)] to_index _) _).
    + intros k Hk. apply blend_indices_is_Some.
      apply elem_of_cons in Hk as [->|Hk]; [tauto|].
      apply list_elem_of_singleton in Hk as ->. tauto.
    + intros k xs x Hin Hx.
      apply elem_of_cons in Hin as [[= -> ->]|Hin];
        [|apply list_elem_of_singleton in Hin as [= -> ->]]; reflexivity.
  - refine (proj2 (proj2 (proj2 (project_constraints_spec RefLibm.ref_libm
              [("rvp", [5.0]%float); ("vis100f", [40; 0.1]%float)] to_index _)))
              "vis100f" [40; 0.1]%float 0.1%float _ _ _).
    + intros k Hk. apply blend_indices_is_Some.
      apply elem_of_cons in Hk as [->|Hk]; [tauto|].
      apply list_elem_of_singleton in Hk as ->. tauto.
    + apply elem_of_cons. right. apply elem_of_cons. by left.
    + apply elem_of_cons. right. apply elem_of_cons. by left.
    + reflexivity.
Defined.

(** ** The viscosity inverse against the viscosity guard *)

(** In binary64, 1 - 0.8 is below 0.2. *)
Lemma one_minus_08_below_guard :
  (1 - 0.8 = 0.19999999999999996)%float /\ (0.2 <? 1 - 0.8)%float = false.
Proof. split; reflexivity. Qed.

(** At the finite index value -20 the nested power rounds to 1, the inverse
    returns 0.19999999999999996, which is not above 0.2, and the forward
    transform rejects it. *)
Lemma inv_vbi_leaves_domain :
  is_finite (-20)%float = true /\
  np_power RefLibm.ref_libm 10 (np_power RefLibm.ref_libm 10 (-20)) = 1%float /\
  inv_vbi RefLibm.ref_libm (Scalar (-20)%float) = Ok (Scalar 0.19999999999999996%float) /\
  (0.2 <? 0.19999999999999996)%float = false /\
  (v ← inv_vbi RefLibm.ref_libm (Scalar (-20)%float); vbi RefLibm.ref_libm v)
    = Raise AssertionError.
Proof. repeat split; vm_compute; reflexivity. Qed.

(** C8, as the code behaves. The viscosity inverse of a scalar [y] is the
    binary64 value np.power(10, np.power(10, y)) - 0.8.  Feeding it back to
    the forward transform passes the domain check exactly when that value is
    above 0.2; it is not whenever the nested power is rounded to 1.0, the
    inverse then being 0.19999999999999996 and the forward transform
    failing. *)
Theorem inv_vbi_domain (L : Libm) (y : float) :
  inv_vbi L (Scalar y) = Ok (Scalar (np_power L 10 (np_power L 10 y) - 0.8)%float) /\
  (v ← inv_vbi L (Scalar y); vbi L v)
    = (if (0.2 <? inv_vbi1 L y)%float
       then Ok (Scalar (vbi1 L (inv_vbi1 L y)))
       else Raise AssertionError) /\
  (np_power L 10 (np_power L 10 y) = 1%float ->
     inv_vbi L (Scalar y) = Ok (Scalar 0.19999999999999996%float) /\
     (v ← inv_vbi L (Scalar y); vbi L v) = Raise AssertionError).
Proof.
  rewrite inv_vbi_vmap; simpl. split; [reflexivity|].
  split; [by rewrite vbi_vmap|].
  intros Hp. unfold inv_vbi1. rewrite Hp. split; reflexivity.
Qed.

Lemma inv_vbi_domain_witness :
  inv_vbi RefLibm.ref_libm (Scalar (-400)%float) = Ok (Scalar 0.19999999999999996%float) /\
  (v ← inv_vbi RefLibm.ref_libm (Scalar (-400)%float); vbi RefLibm.ref_libm v)
    = Raise AssertionError.
Proof.
  apply (proj2 (proj2 (inv_vbi_domain RefLibm.ref_libm (-400)%float))).
  vm_compute. reflexivity.
Defined.

(** ** Known values *)

(** The pour-point index of 32 degrees Fahrenheit, for every implementation
    of the powers: the Celsius value is exactly 0 and the index is
    [np.power((273.15/283.15) * 100**0.08, 12.5)]. *)
Lemma ppi_at_32 (L : Libm) :
  ppi L (Scalar 32%float)
  = Ok (Scalar (np_power L (273.15 / 283.15 * py_pow L 100 0.08) 12.5)%float).
Proof. rewrite ppi_vmap. reflexivity. Qed.

(** With the reference implementation the inverse gives back 32. *)
Example inv_ppi_ppi_at_32 :
  (v ← ppi RefLibm.ref_libm (Scalar 32%float); inv_ppi RefLibm.ref_libm v)
  = Ok (Scalar 32%float).
Proof. vm_compute. reflexivity. Qed.

(** [api] after [sg] near zero: the sum 131.5 + 1e-300 is rounded to 131.5
    and the input is lost. *)
Example api_sg_tiny :
  (v ← sg (Scalar 1e-300%float); api v) = Ok (Scalar 0%float).
Proof. vm_compute. reflexivity. Qed.

(** ** Round trips *)

(** In binary64 a round trip can miss its input altogether.  [api] after
    [sg] at 1e-300 returns 0, the sum 131.5 + 1e-300 being rounded to 131.5;
    [inv_rvpi] after [rvpi] at 1e300 returns +infinity, the power having
    overflowed.  Neither is within a relative tolerance of 1e-9. *)
Lemma round_trip_misses_in_binary64 :
  ((131.5 + 1e-300 =? 0)%float = false /\
   (v ← sg (Scalar 1e-300%float); api v) = Ok (Scalar 0%float) /\
   within_rel_tol 1e-9 1e-300 0 = false) /\
  ((0 <=? 1e300)%float = true /\
   (v ← rvpi RefLibm.ref_libm (Scalar 1e300%float); inv_rvpi RefLibm.ref_libm v)
     = Ok (Scalar infinity) /\
   within_rel_tol 1e-9 1e300 infinity = false).
Proof. repeat split; vm_compute; reflexivity. Qed.

(** * Further properties of the module *)

(** ** Which functions of the registry can fail *)

(** Every function stored in the registry is either the viscosity forward
    transform or an unguarded element-wise map. *)
Lemma registry_function_cases (L : Libm) (k fld : string) (e : gmap string field)
    (f : value -> result value) :
  blend_indices L !! k = Some e -> e !! fld = Some (FFun f) ->
  (k = "vis100f" /\ fld = "func" /\ f = vbi L) \/
  (exists g : float -> float, forall v, f v = Ok (vmap g v)).
Proof.
  unfold blend_indices. intros He Hf.
  repeat (apply lookup_insert_Some in He as [[<- <-]|[_ He]];
    [repeat (apply lookup_insert_Some in Hf as [[<- Hf]|[_ Hf]];
             [injection Hf as <- || discriminate Hf|]);
     [..|by rewrite lookup_empty in Hf]|]);
    [..|by rewrite lookup_empty in He].
  - left. done.
  - right. exists (inv_vbi1 L). apply inv_vbi_vmap.
  - right. exists (rvpi1 L). apply rvpi_vmap.
  - right. exists (inv_rvpi1 L). apply inv_rvpi_vmap.
  - right. exists (ppi1 L). apply ppi_vmap.
  - right. exists (inv_ppi1 L). apply inv_ppi_vmap.
  - right. exists sg1. apply sg_vmap.
  - right. exists api1. apply api_vmap.
Qed.

(** X1. The assertion of [vbi] is the only failure in the registry: when a
    function stored under any key and field fails, the key is vis100f, the
    field is func, the error is the assertion failure, and some element of
    the input is not above 0.2.  The seven other functions never fail. *)
Theorem only_the_viscosity_guard_fails (L : Libm) (k fld : string)
    (e : gmap string field) (f : value -> result value) (v : value) (err : exn) :
  blend_indices L !! k = Some e -> e !! fld = Some (FFun f) ->
  f v = Raise err ->
  k = "vis100f" /\ fld = "func" /\ err = AssertionError /\ all_gt 0.2 v = false.
Proof.
  intros He Hf Hv.
  destruct (registry_function_cases L k fld e f He Hf) as [(-> & -> & ->)|[g Hg]].
  - rewrite vbi_vmap in Hv. destruct (all_gt 0.2 v); [discriminate|].
    injection Hv as <-. done.
  - rewrite Hg in Hv. discriminate.
Qed.

Lemma only_the_viscosity_guard_fails_witness :
  "vis100f" = "vis100f" /\ "func" = "func" /\ AssertionError = AssertionError /\
  all_gt 0.2 (Array [3; 0.1]%float) = false.
Proof.
  destruct (blend_indices_lookup RefLibm.ref_libm) as ((e & He & Hf & _) & _).
  apply (only_the_viscosity_guard_fails RefLibm.ref_libm "vis100f" "func" e
           (vbi RefLibm.ref_libm) (Array [3; 0.1]%float) AssertionError He Hf).
  reflexivity.
Defined.

(** ** Collecting an element-wise map *)

Lemma collect_vmap_ok (f : value -> result value) (g : float -> float) (xs : list float) :
  (forall v, f v = Ok (vmap g v)) -> collect f xs = Ok (map g xs).
Proof.
  intros Hf. induction xs as [|x xs IH]; simpl; [reflexivity|].
  by rewrite Hf, IH.
Qed.

(** ** Empty and concatenated arrays *)

(** X3. Every function of the registry returns the empty array on the empty
    array; the viscosity guard holds vacuously there. *)
Theorem empty_array_passes (L : Libm) (k fld : string) (e : gmap string field)
    (f : value -> result value) :
  blend_indices L !! k = Some e -> e !! fld = Some (FFun f) ->
  f (Array []) = Ok (Array []).
Proof.
  intros He Hf.
  destruct (registry_function_cases L k fld e f He Hf) as [(_ & _ & ->)|[g Hg]].
  - reflexivity.
  - by rewrite Hg.
Qed.

Lemma empty_array_passes_witness :
  vbi RefLibm.ref_libm (Array []) = Ok (Array []).
Proof.
  destruct (blend_indices_lookup RefLibm.ref_libm) as ((e & He & Hf & _) & _).
  exact (empty_array_passes RefLibm.ref_libm "vis100f" "func" e _ He Hf).
Defined.

(** X4. A function of the registry treats a concatenation as its two parts:
    when it succeeds on two arrays it succeeds on their concatenation, with
    the concatenation of the results; and when it succeeds on a
    concatenation it succeeds on both parts, the result being the
    concatenation of theirs. *)
Theorem transforms_append (L : Libm) (k fld : string) (e : gmap string field)
    (f : value -> result value) (xs ys : list float) :
  blend_indices L !! k = Some e -> e !! fld = Some (FFun f) ->
  (forall xs' ys' : list float,
     f (Array xs) = Ok (Array xs') -> f (Array ys) = Ok (Array ys') ->
     f (Array (xs ++ ys)) = Ok (Array (xs' ++ ys'))) /\
  (forall zs : list float, f (Array (xs ++ ys)) = Ok (Array zs) ->
     exists xs' ys', f (Array xs) = Ok (Array xs') /\
                     f (Array ys) = Ok (Array ys') /\ zs = xs' ++ ys').
Proof.
  intros He Hf.
  destruct (registry_function_cases L k fld e f He Hf) as [(_ & _ & ->)|[g Hg]].
  - split.
    + intros xs' ys'. rewrite !vbi_vmap; simpl. rewrite forallb_app.
      destruct (forallb _ xs); [|discriminate].
      destruct (forallb _ ys); [|discriminate].
      intros [= <-] [= <-]. by rewrite map_app.
    + intros zs. rewrite !vbi_vmap; simpl. rewrite forallb_app.
      destruct (forallb _ xs); [|discriminate].
      destruct (forallb _ ys); [|discriminate]. simpl.
      intros [= <-]. do 2 eexists. repeat split. apply map_app.
  - rewrite !Hg; simpl. split.
    + intros xs' ys' [= <-] [= <-]. by rewrite map_app.
    + intros zs [= <-]. do 2 eexists. repeat split. apply map_app.
Qed.

Lemma transforms_append_witness :
  sg (Array ([30] ++ [-131.5; 0])%float)
  = Ok (Array ([0.87616099071207432] ++ [infinity; 1.0760456273764258])%float).
Proof.
  destruct (blend_indices_lookup RefLibm.ref_libm) as (_ & _ & _ & (e & He & Hf & _)).
  apply (proj1 (transforms_append RefLibm.ref_libm "api" "func" e sg
                  [30]%float [-131.5; 0]%float He Hf)); reflexivity.
Defined.

(** ** NaN and the viscosity guard *)

(** Only NaN is not equal to itself. *)
Lemma SFcompare_refl (x : spec_float) : x <> S754_nan -> SFcompare x x = Some Eq.
Proof.
  destruct x as [s|s| |s m e]; simpl; intros Hx; try done.
  - by destruct s.
  - change PosDef.Pos.compare_cont with Pos.compare_cont.
    rewrite Z.compare_refl, Pos.compare_cont_refl. by destruct s.
Qed.

Lemma is_nan_Prim2SF (x : float) : is_nan x = true -> Prim2SF x = S754_nan.
Proof.
  unfold is_nan. rewrite FloatAxioms.eqb_spec. unfold SFeqb.
  destruct (Prim2SF x) as [s|s| |s m e] eqn:Hx; [| |done|];
    rewrite SFcompare_refl by done; discriminate.
Qed.

(** No float is below a NaN. *)
Lemma ltb_nan (c x : float) : is_nan x = true -> (c <? x)%float = false.
Proof.
  intros Hx. rewrite FloatAxioms.ltb_spec, (is_nan_Prim2SF x Hx).
  unfold SFltb. by destruct (Prim2SF c).
Qed.

Lemma ltb_not_nan (c x : float) : (c <? x)%float = true -> is_nan x = false.
Proof.
  intros Hlt. destruct (is_nan x) eqn:Hx; [|reflexivity].
  rewrite (ltb_nan c x Hx) in Hlt. discriminate.
Qed.

(** X5. The viscosity forward transform rejects NaN instead of propagating
    it: a NaN scalar fails the assertion, and so does every array that holds
    a NaN; conversely, on an array it accepts, every element is a number
    above 0.2. *)
Theorem vbi_rejects_nan (L : Libm) :
  (forall x : float, is_nan x = true -> vbi L (Scalar x) = Raise AssertionError) /\
  (forall (xs : list float) (x : float), x ∈ xs -> is_nan x = true ->
     vbi L (Array xs) = Raise AssertionError) /\
  (forall (xs : list float) (w : value), vbi L (Array xs) = Ok w ->
     Forall (fun x => is_nan x = false /\ (0.2 <? x)%float = true) xs).
Proof.
  repeat split.
  - intros x Hx. unfold vbi; simpl. by rewrite (ltb_nan _ _ Hx).
  - intros xs x Hin Hx. unfold vbi; simpl.
    destruct (forallb _ xs) eqn:Hall; [|reflexivity].
    rewrite forallb_forall in Hall. apply list_elem_of_In, Hall in Hin.
    rewrite (ltb_nan _ _ Hx) in Hin. discriminate.
  - intros xs w. unfold vbi; simpl.
    destruct (forallb _ xs) eqn:Hall; [|discriminate]. intros _.
    rewrite forallb_forall in Hall. apply Forall_forall. intros x Hin.
    apply list_elem_of_In, Hall in Hin. split; [|done]. by eapply ltb_not_nan.
Qed.

Lemma vbi_rejects_nan_witness :
  vbi RefLibm.ref_libm (Scalar nan) = Raise AssertionError /\
  vbi RefLibm.ref_libm (Array [1; nan]%float) = Raise AssertionError.
Proof.
  destruct (vbi_rejects_nan RefLibm.ref_libm) as (Hs & Ha & _).
  split; [by apply Hs|].
  apply (Ha _ nan); [|reflexivity]. apply elem_of_cons. right. apply elem_of_cons. by left.
Defined.

(** ** The specific-gravity inverse *)

(** X6. The inverse [api] has no domain check and never fails, for scalars
    and arrays alike, and keeps the shape of its input; at a specific
    gravity of zero the IEEE quotient is infinite, and the result is
    +infinity at 0 and -infinity at -0. *)
Theorem api_total :
  (forall v : value, exists w : value, api v = Ok w /\ same_shape v w) /\
  api (Scalar 0%float) = Ok (Scalar infinity) /\
  api (Scalar (-0)%float) = Ok (Scalar neg_infinity) /\
  api (Array [0; 1.0760456273764258]%float) = Ok (Array [infinity; 0]%float).
Proof.
  repeat split. intros v. exists (vmap api1 v). split.
  - apply api_vmap.
  - apply vmap_same_shape.
Qed.

(** ** The names of the index fields *)

(** The index name of each entry. *)
Lemma blend_indices_index_name (L : Libm) (k s : string) (e : gmap string field) :
  blend_indices L !! k = Some e -> e !! "index_name" = Some (FStr s) ->
  (k = "vis100f" /\ s = "vis100f_idx") \/ (k = "rvp" /\ s = "rvp_idx") \/
  (k = "pour" /\ s = "pour_idx") \/ (k = "api" /\ s = "sg").
Proof.
  unfold blend_indices. intros He Hs.
  repeat (apply lookup_insert_Some in He as [[<- <-]|[_ He]];
          [vm_compute in Hs; injection Hs as <-; tauto|]).
  by rewrite lookup_empty in He.
Qed.

(** X7. The index names of the registry are pairwise distinct, and none of
    them is itself a property key: two entries with the same index name are
    the same entry, and looking an index name up in the registry finds
    nothing. *)
Theorem index_names_distinct (L : Libm) :
  (forall (k1 k2 s : string) (e1 e2 : gmap string field),
     blend_indices L !! k1 = Some e1 -> blend_indices L !! k2 = Some e2 ->
     e1 !! "index_name" = Some (FStr s) -> e2 !! "index_name" = Some (FStr s) ->
     k1 = k2) /\
  (forall (k s : string) (e : gmap string field),
     blend_indices L !! k = Some e -> e !! "index_name" = Some (FStr s) ->
     blend_indices L !! s = None).
Proof.
  split.
  - intros k1 k2 s e1 e2 H1 H2 Hs1 Hs2.
    destruct (blend_indices_index_name L k1 s e1 H1 Hs1)
      as [[-> ->]|[[-> ->]|[[-> ->]|[-> ->]]]];
    destruct (blend_indices_index_name L k2 _ e2 H2 Hs2)
      as [[-> [=]]|[[-> [=]]|[[-> [=]]|[-> [=]]]]]; reflexivity.
  - intros k s e He Hs.
    destruct (blend_indices_index_name L k s e He Hs)
      as [[-> ->]|[[-> ->]|[[-> ->]|[-> ->]]]]; reflexivity.
Qed.

(** ** Just above the guard *)

(** X8. The guard of [vbi] does not keep the inner logarithm away from zero:
    for the two floats that follow 0.2 the guard passes, but the sum with 0.8
    is rounded to exactly 1, so that the result is the double logarithm of 1
    (minus infinity when the logarithm of 1 is 0, as with the reference
    implementation). *)
Theorem vbi_just_above_guard (L : Libm) (x : float) :
  x ∈ [next_up 0.2; next_up (next_up 0.2)]%float ->
  (0.2 <? x)%float = true /\ (x + 0.8 = 1)%float /\
  vbi L (Scalar x) = Ok (Scalar (np_log10 L (np_log10 L 1%float))).
Proof.
  intros Hx. apply elem_of_cons in Hx as [->|Hx];
    [|apply list_elem_of_singleton in Hx as ->]; repeat split.
Qed.

Lemma vbi_just_above_guard_witness :
  (0.2 <? 0.20000000000000004)%float = true /\
  (0.20000000000000004 + 0.8 = 1)%float /\
  vbi RefLibm.ref_libm (Scalar 0.20000000000000004%float)
    = Ok (Scalar (RefLibm.log10 (RefLibm.log10 1%float))).
Proof.
  apply (vbi_just_above_guard RefLibm.ref_libm 0.20000000000000004%float).
  apply elem_of_cons. by left.
Defined.

(** ** Temperature conversions *)

(** In binary64 the inline conversion and the helper differ: at 37 degrees
    Celsius [c * 1.8 + 32] is 98.600000000000009 and [c * 9/5 + 32] is
    98.599999999999994. *)
Example celcius_to_fahrenheit_inline_differs :
  celcius_to_fahrenheit (Scalar 37%float) = Scalar 98.599999999999994%float /\
  (37 * 1.8 + 32 = 98.600000000000009)%float.
Proof. split; reflexivity. Qed.

(** ** Success on an array *)

Lemma collect_vbi_ok (L : Libm) (xs : list float) :
  forallb (fun x => (0.2 <? x)%float) xs = true ->
  collect (vbi L) xs = Ok (map (vbi1 L) xs).
Proof.
  induction xs as [|x xs IH]; simpl; [reflexivity|].
  intros [Hx Hxs]%andb_prop. rewrite vbi_vmap; simpl. rewrite Hx, (IH Hxs). done.
Qed.

(** X12. A function of the registry that succeeds on an array returns an
    array, and each element passes the function on its own, the results
    being the elements of the returned array: no array is accepted that
    holds an element the function rejects as a scalar. *)
Theorem array_success_elementwise (L : Libm) (k fld : string) (e : gmap string field)
    (f : value -> result value) (xs : list float) (w : value) :
  blend_indices L !! k = Some e -> e !! fld = Some (FFun f) ->
  f (Array xs) = Ok w ->
  exists ys : list float,
    w = Array ys /\ collect f xs = Ok ys /\ length ys = length xs.
Proof.
  intros He Hf Hw.
  destruct (registry_function_cases L k fld e f He Hf) as [(_ & _ & ->)|[g Hg]].
  - rewrite vbi_vmap in Hw; simpl in Hw.
    destruct (forallb _ xs) eqn:Hall; [|discriminate]. injection Hw as <-.
    exists (map (vbi1 L) xs). rewrite (collect_vbi_ok L xs Hall), length_map. done.
  - rewrite Hg in Hw. injection Hw as <-. exists (map g xs).
    rewrite (collect_vmap_ok f g xs Hg), length_map. done.
Qed.

Lemma array_success_elementwise_witness :
  exists ys : list float,
    Array [10; -131.5]%float = Array ys /\
    collect api [1; infinity]%float = Ok ys /\ length ys = 2.
Proof.
  destruct (blend_indices_lookup RefLibm.ref_libm) as (_ & _ & _ & (e & He & _ & Hg)).
  apply (array_success_elementwise RefLibm.ref_libm "api" "inv_func" e api
           [1; infinity]%float (Array [10; -131.5]%float) He Hg).
  reflexivity.
Defined.
